(** * fspath: the file system path protocol of [fspath.py]

    The module defines the abstract base class [FSPathABC] and the
    function [fspath(path, *, type_constraint=str)].  The function is
    embedded over a small model of the Python object world it touches:
    objects live in a heap and are known by their address (so that
    "the same object" is equality of addresses), every object has a
    class, classes carry their method resolution order and their
    dictionary, and a call of a method may read and change the heap,
    return an object or raise.  [fspath] itself is written in a state and
    exception monad, statement by statement as in the source; the state
    is the heap together with a log of the attribute accesses and calls
    made on objects.

    Conventions of the model:
    - [type_constraint] is a class or a tuple of classes, so that
      [isinstance] itself does not raise; [isinstance] is membership in
      the resolution order of [type(o)] (no [__instancecheck__], no
      registration of virtual subclasses);
    - attributes are found in the instance dictionary, then in the
      classes of the resolution order (no descriptors, no
      [__getattr__]), so that [hasattr] has no effect of its own;
    - an attribute is either callable with no argument, with a body that
      is a function of the receiver and the heap, or a plain object,
      whose call raises [TypeError];
    - a reference that is not in the heap has no class and no attribute;
    - the log records what the statements of [fspath] do with an object
      (the [hasattr] probe, the fetch of the attribute, the call); what
      the built-in [isinstance] does inside is not part of it. *)

From stdpp Require Import gmap strings list fin_maps.

(** ** Objects, classes, exceptions *)

(** An object reference: the identity ([id(o)]) of a Python object. *)
Abbreviation loc := positive (only parsing).

(** The name of a function body in the program's code table. *)
Abbreviation mid := nat (only parsing).

(** What a built-in object holds besides its class. *)
Inductive payload :=
| PStr (s : string)
| PBytes (b : list Byte.byte)
| PInt (z : Z)
| PNone
| PInstance.

(** What a name is bound to in a class or instance dictionary: a
    function that can be called with no explicit argument on behalf of
    the object the name was looked up on, or a plain object. *)
Inductive attr :=
| AFunction (f : mid)
| AValue (v : loc).

Record object := Object {
  ob_type : string;                (* name of type(o) *)
  ob_payload : payload;
  ob_dict : gmap string attr       (* o.__dict__ *)
}.

Record class := Class {
  cls_mro : list string;           (* __mro__ after the class itself *)
  cls_dict : gmap string attr      (* the class body *)
}.

Inductive exc_kind :=
| TypeError
| NotImplementedError
| AttributeError
| ValueError.

Record exn := Exn { exc_type : exc_kind; exc_msg : string }.

Inductive result (A : Type) :=
| Return (a : A)
| Raise (e : exn).
Arguments Return {A} a.
Arguments Raise {A} e.

(** A function body: it receives the object it is called on and the
    heap, and gives back what it returns or raises, and the heap it
    leaves. *)
Definition method : Type :=
  loc → gmap loc object → result loc * gmap loc object.

Record program := Program {
  classes : gmap string class;
  code : mid → method
}.

(** [isinstance] accepts a class or a (possibly nested) tuple of them. *)
#[local] Set Warnings "-register-all".
Inductive classinfo :=
| CI_class (c : string)
| CI_tuple (ts : list classinfo).

(** Attribute accesses and calls that [fspath] performs on objects. *)
Inductive event :=
| EvHasattr (o : loc) (name : string)
| EvGetattr (o : loc) (name : string)
| EvCall (o : loc) (name : string).

Global Instance exc_kind_eq_dec : EqDecision exc_kind.
Proof. solve_decision. Defined.
Global Instance exn_eq_dec : EqDecision exn.
Proof. solve_decision. Defined.
Global Instance attr_eq_dec : EqDecision attr.
Proof. solve_decision. Defined.
Global Instance event_eq_dec : EqDecision event.
Proof. solve_decision. Defined.
Global Instance result_eq_dec `{EqDecision A} : EqDecision (result A).
Proof. solve_decision. Defined.

Record state := State {
  st_heap : gmap loc object;
  st_log : list event
}.

(** ** The interpreter's built-ins, on a heap *)

Section builtins.
Variable prog : program.

(** [type(c).__mro__], starting with [c] itself. *)
Definition mro (c : string) : list string :=
  c :: from_option cls_mro [] (classes prog !! c).

Fixpoint class_matches (m : list string) (T : classinfo) : bool :=
  match T with
  | CI_class c => bool_decide (c ∈ m)
  | CI_tuple ts => existsb (class_matches m) ts
  end.

Definition type_of (h : gmap loc object) (o : loc) : option string :=
  ob_type <$> h !! o.

(** [isinstance(o, T)]. *)
Definition isinstance (h : gmap loc object) (o : loc) (T : classinfo) : bool :=
  match type_of h o with
  | Some c => class_matches (mro c) T
  | None => false
  end.

(** [type(o).__name__]. *)
Definition type_name (h : gmap loc object) (o : loc) : string :=
  default "" (type_of h o).

(** The first class of a resolution order whose body binds [name]. *)
Fixpoint find_in_mro (m : list string) (name : string) : option (string * attr) :=
  match m with
  | [] => None
  | c :: m' =>
      match classes prog !! c ≫= λ k, cls_dict k !! name with
      | Some a => Some (c, a)
      | None => find_in_mro m' name
      end
  end.

(** [getattr(o, name)]: the instance dictionary, then the classes of
    the resolution order. *)
Definition getattr (h : gmap loc object) (o : loc) (name : string) : option attr :=
  ob ← h !! o;
  match ob_dict ob !! name with
  | Some a => Some a
  | None => snd <$> find_in_mro (mro (ob_type ob)) name
  end.

(** The class whose body supplies [name] for [o]; [None] when the
    instance dictionary does, or nothing does. *)
Definition attr_owner (h : gmap loc object) (o : loc) (name : string) : option string :=
  ob ← h !! o;
  match ob_dict ob !! name with
  | Some _ => None
  | None => fst <$> find_in_mro (mro (ob_type ob)) name
  end.

(** [hasattr(o, name)]. *)
Definition hasattr (h : gmap loc object) (o : loc) (name : string) : bool :=
  bool_decide (is_Some (getattr h o name)).

(** [o.name()] on a heap: what the call returns or raises, and the
    heap after it. *)
Definition invoke (o : loc) (name : string) (h : gmap loc object)
  : result loc * gmap loc object :=
  match getattr h o name with
  | Some (AFunction f) => code prog f o h
  | Some (AValue v) =>
      (Raise (Exn TypeError ("'" +:+ type_name h v +:+ "' object is not callable")), h)
  | None =>
      (Raise (Exn AttributeError
                ("'" +:+ type_name h o +:+ "' object has no attribute '" +:+ name +:+ "'")), h)
  end.
End builtins.

(** ** The monad of statements *)

Definition M (A : Type) : Type := state → result A * state.

Definition raise {A} (e : exn) : M A := λ st, (Raise e, st).

Definition ret {A} (a : A) : M A := λ st, (Return a, st).

Definition bind {A B} (m : M A) (k : A → M B) : M B :=
  λ st, match m st with
        | (Return a, st') => k a st'
        | (Raise e, st') => (Raise e, st')
        end.

Notation "x <- m ;; k" := (bind m (λ x, k))
  (at level 100, m at next level, right associativity, only parsing).
Notation "'do' m ;; k" := (bind m (λ _, k))
  (at level 100, m at next level, right associativity, only parsing).

Definition emit (e : event) : M unit :=
  λ st, (Return tt, State (st_heap st) (st_log st ++ [e])).

Definition gets {A} (f : gmap loc object → A) : M A :=
  λ st, (Return (f (st_heap st)), st).

Definition run_heap {A} (f : gmap loc object → result A * gmap loc object) : M A :=
  λ st, let '(r, h') := f (st_heap st) in (r, State h' (st_log st)).

Section fspath.
Variable prog : program.

Definition py_isinstance (o : loc) (T : classinfo) : M bool :=
  gets (λ h, isinstance prog h o T).

Definition py_hasattr (o : loc) (name : string) : M bool :=
  do emit (EvHasattr o name);;
  gets (λ h, hasattr prog h o name).

Definition py_type_name (o : loc) : M string :=
  gets (λ h, type_name h o).

(** [o.name()]: fetch the attribute, then call it. *)
Definition py_call_method (o : loc) (name : string) : M loc :=
  do emit (EvGetattr o name);;
  a <- gets (λ h, getattr prog h o name);;
  match a with
  | Some (AFunction _) => do emit (EvCall o name);; run_heap (invoke prog o name)
  | _ => run_heap (invoke prog o name)
  end.

(** The default of the keyword-only parameter [type_constraint]. *)
Definition type_constraint_default : classinfo := CI_class "str".

(** [fspath(path, *, type_constraint)]. *)
Definition fspath (path : loc) (type_constraint : classinfo) : M loc :=
  b <- py_isinstance path type_constraint;;
  if b then ret path else
  h <- py_hasattr path "__fspath__";;
  pathstring <-
    (if h then py_call_method path "__fspath__"
     else raise (Exn TypeError
            "path must implement __fspath__() or be an instance of type_constraint"));;
  b' <- py_isinstance pathstring type_constraint;;
  if negb b' then
    type_name <- py_type_name pathstring;;
    raise (Exn TypeError
             ("__fspath__() must return a str or bytes, not " +:+ type_name))
  else ret pathstring.

(** [fspath(path)]. *)
Definition fspath_default (path : loc) : M loc :=
  fspath path type_constraint_default.
End fspath.

(** ** The classes of the module *)

(** [FSPathABC.__fspath__]: the abstract method's body. *)
Definition FSPathABC___fspath__ : method :=
  λ _ h, (Raise (Exn NotImplementedError ""), h).

Definition builtin_class : class := Class ["object"] ∅.

(** [class FSPathABC(abc.ABC)], whose body binds [__fspath__] to the
    function numbered 0. *)
Definition FSPathABC : class :=
  Class ["ABC"; "object"] {[ "__fspath__" := AFunction 0 ]}.

Definition module_classes : gmap string class :=
  {[ "object" := Class [] ∅;
     "str" := builtin_class;
     "bytes" := builtin_class;
     "int" := builtin_class;
     "NoneType" := builtin_class;
     "ABC" := builtin_class;
     "FSPathABC" := FSPathABC ]}.

(** ** A small program using the module *)

Module Demo.
(** [self.__fspath__ = None]. *)
Definition shadow_fspath (ob : object) : object :=
  Object (ob_type ob) (ob_payload ob) (<[ "__fspath__" := AValue 4%positive ]> (ob_dict ob)).

(** The function bodies: 1 is [def __fspath__(self): return "x/y"], with
    the string at address 10; 2 is [... return 42], with the integer at
    address 2; 3 is [... return b"x/y"], with the byte string at address
    3; 4 is [... self.__fspath__ = None; return "x/y"]. *)
Definition demo_code (f : mid) : method :=
  match f with
  | 0 => FSPathABC___fspath__
  | 1 => λ _ h, (Return 10%positive, h)
  | 2 => λ _ h, (Return 2%positive, h)
  | 3 => λ _ h, (Return 3%positive, h)
  | 4 => λ self h, (Return 10%positive, alter shadow_fspath self h)
  | _ => λ self h, (Return self, h)
  end.

(** The classes of the program, besides those of the module:
    [PurePath], [IntPath] and [BytesPath] define [__fspath__] returning a
    [str], an [int] and a [bytes] object; [StubPath(FSPathABC)] defines
    it as [return super().__fspath__()], which runs the abstract body;
    [StrPath(str)] and [DeclaredPath(FSPathABC)] define it as [PurePath]
    does; [NoPath] has [__fspath__ = None]; [OncePath] has the method
    that replaces itself on the instance. *)
Definition demo_classes : gmap string class :=
  <[ "PurePath" := Class ["object"] {[ "__fspath__" := AFunction 1 ]} ]>
  (<[ "IntPath" := Class ["object"] {[ "__fspath__" := AFunction 2 ]} ]>
  (<[ "BytesPath" := Class ["object"] {[ "__fspath__" := AFunction 3 ]} ]>
  (<[ "StubPath" := Class ["FSPathABC"; "ABC"; "object"] {[ "__fspath__" := AFunction 0 ]} ]>
  (<[ "StrPath" := Class ["str"; "object"] {[ "__fspath__" := AFunction 1 ]} ]>
  (<[ "DeclaredPath" := Class ["FSPathABC"; "ABC"; "object"] {[ "__fspath__" := AFunction 1 ]} ]>
  (<[ "NoPath" := Class ["object"] {[ "__fspath__" := AValue 4%positive ]} ]>
  (<[ "OncePath" := Class ["object"] {[ "__fspath__" := AFunction 4 ]} ]>
   module_classes))))))).

Definition demo : program := Program demo_classes demo_code.

Definition b_xy : list Byte.byte := [Byte.x78; Byte.x2f; Byte.x79].

Definition demo_heap : gmap loc object :=
  <[ 1%positive := Object "str" (PStr "a/b/c") ∅ ]>
  (<[ 2%positive := Object "int" (PInt 42) ∅ ]>
  (<[ 3%positive := Object "bytes" (PBytes b_xy) ∅ ]>
  (<[ 4%positive := Object "NoneType" PNone ∅ ]>
  (<[ 10%positive := Object "str" (PStr "x/y") ∅ ]>
  (<[ 20%positive := Object "PurePath" PInstance ∅ ]>
  (<[ 21%positive := Object "IntPath" PInstance ∅ ]>
  (<[ 22%positive := Object "BytesPath" PInstance ∅ ]>
  (<[ 23%positive := Object "StubPath" PInstance ∅ ]>
  (<[ 24%positive := Object "StrPath" (PStr "s") ∅ ]>
  (<[ 25%positive := Object "DeclaredPath" PInstance ∅ ]>
  (<[ 26%positive := Object "NoPath" PInstance ∅ ]>
  (<[ 27%positive := Object "OncePath" PInstance ∅ ]>
   ∅)))))))))))).

Definition st0 : state := State demo_heap [].
End Demo.

(** ** A program that sets [__fspath__] on an instance *)

Module DemoPatched.
(** [class Plain: pass], added to the classes of [Demo]. *)
Definition patched : program :=
  Program (<[ "Plain" := Class ["object"] ∅ ]> Demo.demo_classes) Demo.demo_code.

(** [p = Plain(); p.__fspath__ = f], with [p] at address 30 and [f] the
    function numbered 1, which returns the string at address 10. *)
Definition patched_heap : gmap loc object :=
  <[ 30%positive := Object "Plain" PInstance {[ "__fspath__" := AFunction 1 ]} ]>
    Demo.demo_heap.

Definition st1 : state := State patched_heap [].
End DemoPatched.

(** ** A program with a [str] subclass and a method that builds its result *)

Module DemoMore.
(** [def __fspath__(self): return "x" + "/y"]: the result is a new [str]
    object each time, at address 100, or at 101 when 100 is taken. *)
Definition build_xy : method :=
  λ _ h,
    let a := match h !! 100%positive with None => 100%positive | Some _ => 101%positive end in
    (Return a, <[ a := Object "str" (PStr "x/y") ∅ ]> h).

Definition more_code (f : mid) : method :=
  match f with
  | 5 => build_xy
  | _ => Demo.demo_code f
  end.

(** [class StrIntPath(str)] defines [__fspath__] returning the integer
    at address 2; [class FreshPath] defines it as [build_xy]. *)
Definition more : program :=
  Program (<[ "StrIntPath" := Class ["str"; "object"] {[ "__fspath__" := AFunction 2 ]} ]>
           (<[ "FreshPath" := Class ["object"] {[ "__fspath__" := AFunction 5 ]} ]>
              Demo.demo_classes))
          more_code.

Definition more_heap : gmap loc object :=
  <[ 31%positive := Object "StrIntPath" (PStr "t") ∅ ]>
  (<[ 32%positive := Object "FreshPath" PInstance ∅ ]> Demo.demo_heap).

Definition st2 : state := State more_heap [].
End DemoMore.

(** ** Vocabulary of the statements *)

(** The number of method calls recorded in a log. *)
Definition is_call (e : event) : bool :=
  match e with EvCall _ _ => true | _ => false end.

Definition invocations (l : list event) : nat :=
  length (List.filter is_call l).

(** The error messages of the two [raise] statements. *)
Definition msg_no_protocol : string :=
  "path must implement __fspath__() or be an instance of type_constraint".

Definition msg_bad_return (type_name : string) : string :=
  "__fspath__() must return a str or bytes, not " +:+ type_name.

(** What evaluating [path.__fspath__()] adds to the log. *)
Definition call_events (prog : program) (h : gmap loc object) (path : loc) : list event :=
  EvGetattr path "__fspath__" ::
  match getattr prog h path "__fspath__" with
  | Some (AFunction _) => [EvCall path "__fspath__"]
  | _ => []
  end.





(** [needle in hay], for strings. *)
Fixpoint mentions (needle hay : string) : bool :=
  String.prefix needle hay ||
  match hay with
  | EmptyString => false
  | String _ hay' => mentions needle hay'
  end.

(** The outcome is an exception of class [TypeError]. *)
Definition raises_TypeError {A} (r : result A) : Prop :=
  ∃ msg, r = Raise (Exn TypeError msg).

Section outcomes.
Variables (prog : program) (st : state) (path : loc) (T : classinfo).

(** (1) neither an instance nor a [__fspath__]. *)
Definition no_protocol : Prop :=
  isinstance prog (st_heap st) path T = false ∧
  hasattr prog (st_heap st) path "__fspath__" = false.

(** (2) not an instance, and [__fspath__()] returns a non-instance. *)
Definition bad_return : Prop :=
  isinstance prog (st_heap st) path T = false ∧
  hasattr prog (st_heap st) path "__fspath__" = true ∧
  ∃ s h', invoke prog path "__fspath__" (st_heap st) = (Return s, h') ∧
          isinstance prog h' s T = false.

(** Not an instance, and the call of [__fspath__] itself raises [e]. *)
Definition call_raises (e : exn) : Prop :=
  isinstance prog (st_heap st) path T = false ∧
  hasattr prog (st_heap st) path "__fspath__" = true ∧
  ∃ h', invoke prog path "__fspath__" (st_heap st) = (Raise e, h').

(** Not an instance, and [__fspath__()] returns an instance. *)
Definition good_return : Prop :=
  isinstance prog (st_heap st) path T = false ∧
  hasattr prog (st_heap st) path "__fspath__" = true ∧
  ∃ s h', invoke prog path "__fspath__" (st_heap st) = (Return s, h') ∧
          isinstance prog h' s T = true.

(** The validation error as the specification words it, for every
    object that has a [__fspath__]: whenever the call returns an object
    of class [c] that is not an instance of the constraint, [fspath]
    raises a [TypeError] whose message mentions [c]. *)
Definition bad_return_contract : Prop :=
  hasattr prog (st_heap st) path "__fspath__" = true →
  ∀ s h' c,
    invoke prog path "__fspath__" (st_heap st) = (Return s, h') →
    isinstance prog h' s T = false →
    type_of h' s = Some c →
    ∃ msg, fst (fspath prog path T st) = Raise (Exn TypeError msg) ∧
           mentions c msg = true.

(** The error behaviour as the specification words it: a [TypeError]
    exactly in the cases (1) and (2), and a normal return of an instance
    of the constraint in every other case. *)
Definition error_contract : Prop :=
  (raises_TypeError (fst (fspath prog path T st)) ↔ no_protocol ∨ bad_return) ∧
  (¬ (no_protocol ∨ bad_return) →
   ∃ v, fst (fspath prog path T st) = Return v ∧
        isinstance prog (st_heap (snd (fspath prog path T st))) v T = true).
End outcomes.



(** The name of the abstract base class. *)
Definition marker : string := "FSPathABC".

(** What a class gains in its resolution order by deriving from
    [FSPathABC]: the class itself and its own base [abc.ABC]
    ([class FSPathABC(abc.ABC)]). *)
Definition marker_classes : list string := [marker; "ABC"].

Definition in_marker (c : string) : bool := bool_decide (c ∈ marker_classes).

(** The class without [FSPathABC] among its bases: its resolution order
    loses [FSPathABC] and [ABC]. *)
Definition forget_marker (k : class) : class :=
  Class (List.filter (λ c, negb (in_marker c)) (cls_mro k)) (cls_dict k).

(** The program in which no class derives from [FSPathABC]. *)
Definition without_marker (prog : program) : program :=
  Program (forget_marker <$> classes prog) (code prog).

(** The type constraint mentions [FSPathABC] or [ABC]. *)
Fixpoint names_marker (T : classinfo) : bool :=
  match T with
  | CI_class d => in_marker d
  | CI_tuple ts => existsb names_marker ts
  end.

(** The attribute [name] of [o] comes from the body of [FSPathABC] or
    [ABC]. *)
Definition inherited_from_marker (prog : program) (h : gmap loc object)
    (o : loc) (name : string) : bool :=
  from_option in_marker false (attr_owner prog h o name).

(** The independence from [FSPathABC] as the specification words it, for
    any type constraint: an object that has a [__fspath__] of its own is
    treated the same whether or not its class derives from [FSPathABC]. *)
Definition marker_blind (prog : program) (st : state) (path : loc) (T : classinfo) : Prop :=
  hasattr prog (st_heap st) path "__fspath__" = true →
  inherited_from_marker prog (st_heap st) path "__fspath__" = false →
  fspath (without_marker prog) path T st = fspath prog path T st.

(** ** How [fspath] runs, branch by branch *)

(** Runs the monad's plumbing and leaves the built-ins folded. *)
Ltac run_monad :=
  unfold bind, ret, raise, emit, gets, run_heap;
  cbn [st_heap st_log fst snd].

Section branches.
Variable prog : program.
#[local] Arguments isinstance : simpl never.
#[local] Arguments hasattr : simpl never.
#[local] Arguments getattr : simpl never.
#[local] Arguments invoke : simpl never.
#[local] Arguments type_name : simpl never.
Implicit Types (h : gmap loc object) (l : list event) (path s : loc)
  (T : classinfo) (st : state).

Lemma py_call_method_run h l path :
  py_call_method prog path "__fspath__" (State h l) =
  (fst (invoke prog path "__fspath__" h),
   State (snd (invoke prog path "__fspath__" h)) (l ++ call_events prog h path)).
Proof.
  unfold py_call_method, call_events. run_monad.
  destruct (getattr prog h path "__fspath__") as [[f|v]|]; run_monad;
    destruct (invoke prog path "__fspath__" h) as [r h']; run_monad;
    by rewrite <- ?(assoc_L (++)).
Qed.

Lemma invoke_Return_callable h h' path s :
  invoke prog path "__fspath__" h = (Return s, h') →
  ∃ f, getattr prog h path "__fspath__" = Some (AFunction f).
Proof.
  unfold invoke. destruct (getattr prog h path "__fspath__") as [[f|v]|]; [eauto|done..].
Qed.

Lemma fspath_fast h l path T :
  isinstance prog h path T = true →
  fspath prog path T (State h l) = (Return path, State h l).
Proof. intros Hi. unfold fspath, py_isinstance. run_monad. by rewrite Hi. Qed.

Lemma fspath_absent h l path T :
  isinstance prog h path T = false →
  hasattr prog h path "__fspath__" = false →
  fspath prog path T (State h l) =
    (Raise (Exn TypeError msg_no_protocol),
     State h (l ++ [EvHasattr path "__fspath__"])).
Proof.
  intros Hi Ha. unfold fspath, py_isinstance, py_hasattr. run_monad.
  rewrite Hi. run_monad. by rewrite Ha.
Qed.

Lemma fspath_dispatch h l path T :
  isinstance prog h path T = false →
  hasattr prog h path "__fspath__" = true →
  fspath prog path T (State h l) =
    let '(r, h') := invoke prog path "__fspath__" h in
    let st' := State h' (l ++ EvHasattr path "__fspath__" :: call_events prog h path) in
    match r with
    | Return s =>
        if isinstance prog h' s T then (Return s, st')
        else (Raise (Exn TypeError (msg_bad_return (type_name h' s))), st')
    | Raise e => (Raise e, st')
    end.
Proof.
  intros Hi Ha. unfold fspath, py_isinstance, py_hasattr, py_type_name. run_monad.
  rewrite Hi. run_monad. rewrite Ha, py_call_method_run.
  destruct (invoke prog path "__fspath__" h) as [[s|e] h']; run_monad;
    rewrite <- (assoc_L (++)); [|done].
  by destruct (isinstance prog h' s T).
Qed.
End branches.

(** Splits a run of [fspath] on a state [State h l] into its branches and
    rewrites it with the matching branch lemma. *)
Ltac fspath_cases prog h path T :=
  let Hi := fresh "Hinst" in
  let Ha := fresh "Hattr" in
  destruct (isinstance prog h path T) eqn:Hi;
  [ rewrite ?(fspath_fast prog h _ path T Hi) in *
  | destruct (hasattr prog h path "__fspath__") eqn:Ha;
    [ rewrite ?(fspath_dispatch prog h _ path T Hi Ha) in *
    | rewrite ?(fspath_absent prog h _ path T Hi Ha) in * ] ].

(** ** Step 1: the fast path *)

(** C1.  A path that is already an instance of the type constraint is
    returned as the very same object, and nothing else happens: the heap
    and the log are left as they were.  In particular a [str] object is
    returned as it is under the default constraint, and a [bytes] object
    under the constraint [bytes]. *)
Theorem fspath_instance_is_returned_unchanged prog st path T :
  (isinstance prog (st_heap st) path T = true →
     fspath prog path T st = (Return path, st)) ∧
  (type_of (st_heap st) path = Some "str" →
     fspath_default prog path st = (Return path, st)) ∧
  (type_of (st_heap st) path = Some "bytes" →
     fspath prog path (CI_class "bytes") st = (Return path, st)).
Proof.
  destruct st as [h l]; cbn [st_heap].
  assert (Hself : ∀ c, type_of h path = Some c →
            isinstance prog h path (CI_class c) = true).
  { intros c Hc. unfold isinstance. rewrite Hc. cbn [class_matches].
    apply bool_decide_eq_true. unfold mro. apply list_elem_of_here. }
  split_and!.
  - apply fspath_fast.
  - intros Hc. apply fspath_fast, Hself, Hc.
  - intros Hc. apply fspath_fast, Hself, Hc.
Qed.

Lemma fspath_instance_is_returned_unchanged_witness :
  fspath Demo.demo 24 (CI_tuple [CI_class "bytes"; CI_class "str"]) Demo.st0
    = (Return 24%positive, Demo.st0) ∧
  fspath_default Demo.demo 1 Demo.st0 = (Return 1%positive, Demo.st0) ∧
  fspath Demo.demo 3 (CI_class "bytes") Demo.st0 = (Return 3%positive, Demo.st0).
Proof.
  split_and!.
  - apply (proj1 (fspath_instance_is_returned_unchanged Demo.demo Demo.st0 24
                    (CI_tuple [CI_class "bytes"; CI_class "str"]))).
    vm_compute. reflexivity.
  - apply (proj1 (proj2 (fspath_instance_is_returned_unchanged Demo.demo Demo.st0 1
                           type_constraint_default))).
    vm_compute. reflexivity.
  - apply (proj2 (proj2 (fspath_instance_is_returned_unchanged Demo.demo Demo.st0 3
                           type_constraint_default))).
    vm_compute. reflexivity.
Defined.

(** C10.  The instance check comes first: a path that is an instance of
    the type constraint and also has a [__fspath__] attribute is
    returned itself; the attribute is neither probed nor called. *)
Theorem fspath_fast_path_precedes_dispatch prog st path T :
  isinstance prog (st_heap st) path T = true →
  hasattr prog (st_heap st) path "__fspath__" = true →
  fspath prog path T st = (Return path, st) ∧
  invocations (st_log (snd (fspath prog path T st))) = invocations (st_log st).
Proof.
  destruct st as [h l]; cbn [st_heap]. intros Hi _.
  by rewrite (fspath_fast prog h l path T Hi).
Qed.

Lemma fspath_fast_path_precedes_dispatch_witness :
  fspath Demo.demo 24 (CI_class "str") Demo.st0 = (Return 24%positive, Demo.st0) ∧
  invocations (st_log (snd (fspath Demo.demo 24 (CI_class "str") Demo.st0)))
    = invocations (st_log Demo.st0).
Proof.
  apply (fspath_fast_path_precedes_dispatch Demo.demo Demo.st0 24 (CI_class "str"));
    vm_compute; reflexivity.
Defined.

(** ** Step 2: dispatch to [__fspath__] *)

(** C2.  For a path that is not an instance of the type constraint but
    has a [__fspath__] whose call returns an instance [s] of the
    constraint, [fspath] returns [s]; the method is called once, and the
    heap is the one the call left. *)
Theorem fspath_calls_once_and_returns_result prog st path T s h' :
  isinstance prog (st_heap st) path T = false →
  hasattr prog (st_heap st) path "__fspath__" = true →
  invoke prog path "__fspath__" (st_heap st) = (Return s, h') →
  isinstance prog h' s T = true →
  ∃ st', fspath prog path T st = (Return s, st') ∧
         st_heap st' = h' ∧
         st_log st' = st_log st ++ [EvHasattr path "__fspath__";
                                    EvGetattr path "__fspath__";
                                    EvCall path "__fspath__"] ∧
         invocations (st_log st') = S (invocations (st_log st)).
Proof.
  destruct st as [h l]; cbn [st_heap st_log]. intros Hi Ha Hcall Hs.
  rewrite (fspath_dispatch prog h l path T Hi Ha), Hcall, Hs.
  destruct (invoke_Return_callable prog h h' path s Hcall) as [f Hf].
  unfold call_events. rewrite Hf.
  eexists; split_and!; [reflexivity..|].
  cbn [st_log]. unfold invocations.
  rewrite List.filter_app, length_app. cbn. lia.
Qed.

Lemma fspath_calls_once_and_returns_result_witness :
  ∃ st', fspath Demo.demo 20 (CI_class "str") Demo.st0 = (Return 10%positive, st') ∧
         st_heap st' = Demo.demo_heap ∧
         st_log st' = st_log Demo.st0 ++ [EvHasattr 20 "__fspath__";
                                          EvGetattr 20 "__fspath__";
                                          EvCall 20 "__fspath__"] ∧
         invocations (st_log st') = S (invocations (st_log Demo.st0)).
Proof.
  apply (fspath_calls_once_and_returns_result Demo.demo Demo.st0 20 (CI_class "str")
           10 Demo.demo_heap); vm_compute; reflexivity.
Defined.

(** ** Step 3: no [__fspath__] *)




(** ** Step 4: validation of what [__fspath__] returned *)

Lemma prefix_refl (s : string) : String.prefix s s = true.
Proof.
  induction s as [|a s IH]; [done|]. cbn.
  destruct (Ascii.ascii_dec a a); [done|congruence].
Qed.

Lemma mentions_suffix (pre s : string) : mentions s (pre +:+ s) = true.
Proof.
  induction pre as [|a pre IH].
  - change (mentions s s = true).
    destruct s; cbn [mentions]; by rewrite prefix_refl.
  - change (mentions s (String a (pre +:+ s)) = true).
    cbn [mentions]. rewrite IH. apply orb_true_r.
Qed.

Section validation.
Variables (prog : program) (st : state) (path s : loc) (T : classinfo)
  (h' : gmap loc object).
Hypothesis Hinst : isinstance prog (st_heap st) path T = false.
Hypothesis Hattr : hasattr prog (st_heap st) path "__fspath__" = true.
Hypothesis Hcall : invoke prog path "__fspath__" (st_heap st) = (Return s, h').

Lemma fspath_rejects_result :
  isinstance prog h' s T = false →
  fst (fspath prog path T st) =
    Raise (Exn TypeError (msg_bad_return (type_name h' s))).
Proof.
  destruct st as [h l]; cbn [st_heap] in *. intros Hs.
  by rewrite (fspath_dispatch prog h l path T Hinst Hattr), Hcall, Hs.
Qed.

(** C5, amended.  For a path that is not itself an instance of the type
    constraint: when [__fspath__()] returns an object that is not an
    instance of the constraint, [fspath] raises a [TypeError], and the
    message mentions the name of the class of that object. *)
Theorem fspath_bad_return_names_actual_type (c : string) :
  isinstance prog h' s T = false →
  type_of h' s = Some c →
  ∃ msg, fst (fspath prog path T st) = Raise (Exn TypeError msg) ∧
         mentions c msg = true.
Proof.
  intros Hs Hc. eexists; split; [by apply fspath_rejects_result|].
  unfold msg_bad_return, type_name. rewrite Hc. apply mentions_suffix.
Qed.
End validation.

(** C5, as stated, fails on an instance of a [str] subclass whose
    [__fspath__] returns 42: under the default constraint the instance
    test comes first and returns the object, and nothing is raised. *)
Lemma fspath_bad_return_unchecked_for_instance :
  ¬ bad_return_contract DemoMore.more DemoMore.st2 31 type_constraint_default.
Proof.
  intros H.
  destruct (H eq_refl 2%positive DemoMore.more_heap "int" eq_refl eq_refl eq_refl)
    as (msg & Hrun & _).
  vm_compute in Hrun. discriminate Hrun.
Qed.

Lemma fspath_bad_return_names_actual_type_witness :
  ∃ msg, fst (fspath Demo.demo 21 (CI_class "str") Demo.st0)
           = Raise (Exn TypeError msg) ∧
         mentions "int" msg = true.
Proof.
  apply (fspath_bad_return_names_actual_type Demo.demo Demo.st0 21 2 (CI_class "str")
           Demo.demo_heap); vm_compute; reflexivity.
Defined.

(** C9.  The text of the second error does not depend on the type
    constraint: whatever the constraint, a rejected result gives the
    message "__fspath__() must return a str or bytes, not " followed by
    the name of the result's class.  In particular, under the default
    constraint [str], a [__fspath__] returning a [bytes] object is
    rejected with a message that names bytes as acceptable. *)
Theorem fspath_bad_return_message_is_fixed prog st path s T h' :
  isinstance prog (st_heap st) path T = false →
  hasattr prog (st_heap st) path "__fspath__" = true →
  invoke prog path "__fspath__" (st_heap st) = (Return s, h') →
  (isinstance prog h' s T = false →
     fst (fspath prog path T st) =
       Raise (Exn TypeError
                ("__fspath__() must return a str or bytes, not " +:+ type_name h' s))) ∧
  (T = type_constraint_default →
   classes prog !! "bytes" = module_classes !! "bytes" →
   type_of h' s = Some "bytes" →
     fst (fspath_default prog path st) =
       Raise (Exn TypeError "__fspath__() must return a str or bytes, not bytes")).
Proof.
  intros Hi Ha Hcall. split.
  - intros Hs. by apply fspath_rejects_result.
  - intros -> Hbytes Hty. unfold fspath_default.
    rewrite (fspath_rejects_result prog st path s _ h' Hi Ha Hcall).
    + unfold msg_bad_return, type_name. by rewrite Hty.
    + unfold isinstance. rewrite Hty. unfold mro. rewrite Hbytes. vm_compute. reflexivity.
Qed.

Lemma fspath_bad_return_message_is_fixed_witness :
  fst (fspath Demo.demo 21 (CI_class "bytes") Demo.st0) =
    Raise (Exn TypeError "__fspath__() must return a str or bytes, not int") ∧
  fst (fspath_default Demo.demo 22 Demo.st0) =
    Raise (Exn TypeError "__fspath__() must return a str or bytes, not bytes").
Proof.
  split.
  - apply (proj1 (fspath_bad_return_message_is_fixed Demo.demo Demo.st0 21 2
                    (CI_class "bytes") Demo.demo_heap eq_refl eq_refl eq_refl)).
    vm_compute. reflexivity.
  - apply (proj2 (fspath_bad_return_message_is_fixed Demo.demo Demo.st0 22 3
                    type_constraint_default Demo.demo_heap eq_refl eq_refl eq_refl));
      vm_compute; reflexivity.
Defined.

(** ** Idempotence *)

(** C6.  Whatever [fspath] returns is an instance of the type
    constraint, so applying [fspath] again to the result, in the state
    the first call left, returns the same object and changes nothing. *)
Theorem fspath_idempotent prog st st' path r T :
  fspath prog path T st = (Return r, st') →
  isinstance prog (st_heap st') r T = true ∧
  fspath prog r T st' = (Return r, st').
Proof.
  destruct st as [h l]. intros Hrun.
  fspath_cases prog h path T.
  - injection Hrun as <- <-. split; [done|]. by apply fspath_fast.
  - destruct (invoke prog path "__fspath__" h) as [[s|e] h1]; [|done].
    destruct (isinstance prog h1 s T) eqn:Hs; [|done].
    injection Hrun as <- <-. split; [done|]. by apply fspath_fast.
  - done.
Qed.

Lemma fspath_idempotent_witness :
  isinstance Demo.demo Demo.demo_heap 10 (CI_class "str") = true ∧
  fspath Demo.demo 10 (CI_class "str")
    (State Demo.demo_heap [EvHasattr 20 "__fspath__"; EvGetattr 20 "__fspath__";
                           EvCall 20 "__fspath__"])
  = (Return 10%positive,
     State Demo.demo_heap [EvHasattr 20 "__fspath__"; EvGetattr 20 "__fspath__";
                           EvCall 20 "__fspath__"]).
Proof.
  apply (fspath_idempotent Demo.demo Demo.st0
           (State Demo.demo_heap [EvHasattr 20 "__fspath__"; EvGetattr 20 "__fspath__";
                                  EvCall 20 "__fspath__"])
           20 10 (CI_class "str")).
  vm_compute. reflexivity.
Defined.

(** ** The two failure exits *)

(** Takes hypotheses apart and closes the cases that equate different
    constructors or contradict an earlier test. *)
Ltac break_cases :=
  intros;
  repeat match goal with
         | H : _ ∧ _ |- _ => destruct H
         | H : _ ∨ _ |- _ => destruct H
         | H : ∃ _, _ |- _ => destruct H
         end;
  simplify_eq; try congruence; eauto 10.

Ltac refute_neg :=
  exfalso; match goal with H : ¬ _ |- _ => apply H end.

(** C3, as stated, fails on an object whose [__fspath__] raises, as the
    body of [FSPathABC.__fspath__] does: the path is in neither of the
    two cases, and still [fspath] does not return. *)
Lemma fspath_error_contract_fails_when_call_raises :
  ¬ error_contract Demo.demo Demo.st0 23 type_constraint_default.
Proof.
  intros [_ Hret]. destruct Hret as (v & Hv & _).
  - intros [[_ Ha] | (_ & _ & s & h' & Hcall & _)].
    + vm_compute in Ha. discriminate Ha.
    + vm_compute in Hcall. discriminate Hcall.
  - vm_compute in Hv. discriminate Hv.
Qed.

(** C3, amended.  [fspath] raises a [TypeError] whenever (1) the path is
    not an instance of the constraint and has no [__fspath__], or (2) it
    is not an instance, has [__fspath__], and the call returns a
    non-instance; but not only then: nothing is caught, so an exception
    that the call of [__fspath__] raises, of whatever class, is the one
    [fspath] raises.  [fspath] returns when the path is an instance of
    the constraint or when the call returns one; and whatever it returns
    is an instance of the constraint. *)
Theorem fspath_error_contract prog st path T :
  (no_protocol prog st path T ∨ bad_return prog st path T →
     raises_TypeError (fst (fspath prog path T st))) ∧
  (∀ e, call_raises prog st path T e → fst (fspath prog path T st) = Raise e) ∧
  (isinstance prog (st_heap st) path T = true ∨ good_return prog st path T →
     ∃ v, fst (fspath prog path T st) = Return v) ∧
  (∀ v, fst (fspath prog path T st) = Return v →
     isinstance prog (st_heap (snd (fspath prog path T st))) v T = true).
Proof.
  unfold raises_TypeError, no_protocol, bad_return, call_raises, good_return.
  destruct st as [h l]; cbn [st_heap].
  fspath_cases prog h path T; cbn [fst snd st_heap];
    [| destruct (invoke prog path "__fspath__" h) as [[s|e] h1] eqn:Hcall;
       [destruct (isinstance prog h1 s T) eqn:Hs|]; cbn [fst snd st_heap] |];
    split_and!; break_cases.
Qed.

Lemma fspath_error_contract_witness :
  raises_TypeError (fst (fspath Demo.demo 21 (CI_class "str") Demo.st0)) ∧
  fst (fspath Demo.demo 23 (CI_class "str") Demo.st0)
    = Raise (Exn NotImplementedError "") ∧
  (∃ v, fst (fspath Demo.demo 20 (CI_class "str") Demo.st0) = Return v).
Proof.
  split_and!.
  - apply (proj1 (fspath_error_contract Demo.demo Demo.st0 21 (CI_class "str"))).
    right. split_and!; [vm_compute; reflexivity..|].
    exists 2%positive, Demo.demo_heap. split; vm_compute; reflexivity.
  - apply (proj1 (proj2 (fspath_error_contract Demo.demo Demo.st0 23 (CI_class "str")))).
    split_and!; [vm_compute; reflexivity..|].
    exists Demo.demo_heap. vm_compute. reflexivity.
  - apply (proj1 (proj2 (proj2
             (fspath_error_contract Demo.demo Demo.st0 20 (CI_class "str"))))).
    right. split_and!; [vm_compute; reflexivity..|].
    exists 10%positive, Demo.demo_heap. split; vm_compute; reflexivity.
Defined.

(** ** No state of its own *)

Section frame.
Variables (prog : program) (path : loc) (T : classinfo).
Implicit Types (h : gmap loc object) (l : list event) (o : loc).






End frame.



(** When the call changes the object it is made on, a second run may
    differ: the [__fspath__] of the object at address 27 replaces itself
    by [None]. *)
Example fspath_second_run_after_side_effect :
  fst (fspath Demo.demo 27 (CI_class "str") Demo.st0) = Return 10%positive ∧
  fst (fspath Demo.demo 27 (CI_class "str")
         (snd (fspath Demo.demo 27 (CI_class "str") Demo.st0))) =
    Raise (Exn TypeError "'NoneType' object is not callable").
Proof. split; vm_compute; reflexivity. Qed.

(** ** The abstract base class is not consulted *)

Lemma classinfo_nested_ind (P : classinfo → Prop) :
  (∀ c, P (CI_class c)) →
  (∀ ts, Forall P ts → P (CI_tuple ts)) →
  ∀ T, P T.
Proof.
  intros Hc Ht. fix IH 1. intros [c|ts]; [apply Hc|].
  apply Ht. induction ts as [|T ts IHts]; constructor; [apply IH|apply IHts].
Qed.

Section marker.
Variable prog : program.
Implicit Types (h : gmap loc object) (c name : string) (T : classinfo).

Lemma mro_without_marker c :
  mro (without_marker prog) c =
  c :: List.filter (λ d, negb (in_marker d)) (from_option cls_mro [] (classes prog !! c)).
Proof.
  unfold mro, without_marker; cbn [classes].
  rewrite lookup_fmap. by destruct (classes prog !! c).
Qed.

Lemma class_dict_without_marker c name :
  (classes (without_marker prog) !! c ≫= λ k, cls_dict k !! name) =
  (classes prog !! c ≫= λ k, cls_dict k !! name).
Proof.
  unfold without_marker; cbn [classes].
  rewrite lookup_fmap. by destruct (classes prog !! c).
Qed.

Lemma class_matches_without_marker c T :
  names_marker T = false →
  class_matches (mro (without_marker prog) c) T = class_matches (mro prog c) T.
Proof.
  rewrite mro_without_marker. unfold mro.
  generalize (from_option cls_mro [] (classes prog !! c)) as m. intros m.
  induction T as [d|ts IH] using classinfo_nested_ind; cbn [names_marker class_matches].
  - intros Hd. apply bool_decide_ext.
    rewrite !elem_of_cons, !list_elem_of_In, List.filter_In, negb_true_iff.
    split; [tauto|]. intros [?|?]; [by left|by right].
  - induction IH as [|T ts HT _ IHts]; [done|]. cbn [existsb].
    intros [H1 H2]%orb_false_iff. by rewrite HT, IHts.
Qed.

Lemma isinstance_without_marker h o T :
  names_marker T = false →
  isinstance (without_marker prog) h o T = isinstance prog h o T.
Proof.
  intros HT. unfold isinstance. destruct (type_of h o); [|done].
  by apply class_matches_without_marker.
Qed.

Lemma find_in_mro_filter m name :
  from_option in_marker false (fst <$> find_in_mro prog m name) = false →
  find_in_mro (without_marker prog)
    (List.filter (λ d, negb (in_marker d)) m) name = find_in_mro prog m name.
Proof.
  induction m as [|d m IH]; [done|]. cbn [find_in_mro List.filter].
  destruct (in_marker d) eqn:Hd; cbn [negb].
  - destruct (classes prog !! d ≫= λ k, cls_dict k !! name); [|apply IH].
    cbn. congruence.
  - cbn [find_in_mro]. rewrite class_dict_without_marker.
    destruct (classes prog !! d ≫= λ k, cls_dict k !! name); [done|]. apply IH.
Qed.

Lemma getattr_without_marker h o name :
  inherited_from_marker prog h o name = false →
  getattr (without_marker prog) h o name = getattr prog h o name.
Proof.
  unfold inherited_from_marker, attr_owner, getattr.
  destruct (h !! o) as [ob|]; [|done].
  cbn [mbind option_bind].
  destruct (ob_dict ob !! name); [done|].
  rewrite mro_without_marker. unfold mro. cbn [find_in_mro].
  rewrite class_dict_without_marker.
  destruct (classes prog !! ob_type ob ≫= λ k, cls_dict k !! name); [done|].
  intros Hown. by rewrite find_in_mro_filter.
Qed.
End marker.

Section marker_runs.
Variable prog : program.
Implicit Types (h : gmap loc object) (l : list event) (T : classinfo).

Lemma hasattr_without_marker h o name :
  inherited_from_marker prog h o name = false →
  hasattr (without_marker prog) h o name = hasattr prog h o name.
Proof. intros Hown. unfold hasattr. by rewrite getattr_without_marker. Qed.

Lemma invoke_without_marker h o name :
  inherited_from_marker prog h o name = false →
  invoke (without_marker prog) o name h = invoke prog o name h.
Proof. intros Hown. unfold invoke. by rewrite getattr_without_marker. Qed.

Lemma fspath_without_marker h l path T :
  names_marker T = false →
  inherited_from_marker prog h path "__fspath__" = false →
  fspath (without_marker prog) path T (State h l) = fspath prog path T (State h l).
Proof.
  intros HT Hown.
  pose proof (isinstance_without_marker prog h path T HT) as Hi.
  pose proof (hasattr_without_marker h path "__fspath__" Hown) as Ha.
  destruct (isinstance prog h path T) eqn:Hinst.
  { by rewrite !fspath_fast. }
  destruct (hasattr prog h path "__fspath__") eqn:Hattr.
  - rewrite !fspath_dispatch by done.
    rewrite invoke_without_marker by done.
    unfold call_events. rewrite getattr_without_marker by done.
    destruct (invoke prog path "__fspath__" h) as [[s|e] h1]; [|done].
    by rewrite isinstance_without_marker.
  - by rewrite !fspath_absent.
Qed.
End marker_runs.

(** C7, as stated, fails when the caller passes [FSPathABC] itself as the
    type constraint: the instance check of the fast path then tells the
    two objects apart, and the one that does not derive from [FSPathABC]
    is the one that fails. *)
Lemma fspath_marker_as_constraint_is_consulted :
  ¬ marker_blind Demo.demo Demo.st0 25 (CI_class "FSPathABC").
Proof.
  intros H. specialize (H eq_refl eq_refl).
  apply (f_equal fst) in H. vm_compute in H. discriminate H.
Qed.

(** The class of the object at address 25 with and without the base, and
    the two runs under the constraints [FSPathABC] and [ABC]. *)
Example fspath_marker_as_constraint_runs :
  mro Demo.demo "DeclaredPath" = ["DeclaredPath"; "FSPathABC"; "ABC"; "object"] ∧
  mro (without_marker Demo.demo) "DeclaredPath" = ["DeclaredPath"; "object"] ∧
  fst (fspath Demo.demo 25 (CI_class "FSPathABC") Demo.st0) = Return 25%positive ∧
  fst (fspath (without_marker Demo.demo) 25 (CI_class "FSPathABC") Demo.st0) =
    Raise (Exn TypeError "__fspath__() must return a str or bytes, not str") ∧
  fst (fspath Demo.demo 25 (CI_class "ABC") Demo.st0) = Return 25%positive ∧
  fst (fspath (without_marker Demo.demo) 25 (CI_class "ABC") Demo.st0) =
    Raise (Exn TypeError "__fspath__() must return a str or bytes, not str").
Proof. split_and!; vm_compute; reflexivity. Qed.

(** C7, amended.  For every type constraint that names neither
    [FSPathABC] nor its base [ABC], and every object whose [__fspath__]
    is not inherited from them, [fspath] runs the same (same outcome,
    same heap, same accesses) whether or not classes derive from
    [FSPathABC]: the function never looks at the abstract base class. *)
Theorem fspath_never_consults_marker prog st path T :
  names_marker T = false →
  inherited_from_marker prog (st_heap st) path "__fspath__" = false →
  fspath (without_marker prog) path T st = fspath prog path T st.
Proof. destruct st as [h l]. apply fspath_without_marker. Qed.

Lemma fspath_never_consults_marker_witness :
  fspath (without_marker Demo.demo) 25 (CI_tuple [CI_class "str"; CI_class "bytes"]) Demo.st0
  = fspath Demo.demo 25 (CI_tuple [CI_class "str"; CI_class "bytes"]) Demo.st0.
Proof.
  apply (fspath_never_consults_marker Demo.demo Demo.st0 25
           (CI_tuple [CI_class "str"; CI_class "bytes"]));
    vm_compute; reflexivity.
Defined.

(** ** Concrete runs *)

(** What the object that a run returns holds. *)
Definition returned_payload (run : result loc * state) : option payload :=
  match run with
  | (Return v, st') => ob_payload <$> st_heap st' !! v
  | (Raise _, _) => None
  end.

Example fspath_of_a_string :
  returned_payload (fspath_default Demo.demo 1 Demo.st0) = Some (PStr "a/b/c").
Proof. vm_compute. reflexivity. Qed.

Example fspath_of_a_path_object :
  returned_payload (fspath_default Demo.demo 20 Demo.st0) = Some (PStr "x/y").
Proof. vm_compute. reflexivity. Qed.

Example fspath_of_a_path_object_returning_42 :
  fst (fspath_default Demo.demo 21 Demo.st0) =
    Raise (Exn TypeError "__fspath__() must return a str or bytes, not int").
Proof. vm_compute. reflexivity. Qed.

Example fspath_of_42 :
  raises_TypeError (fst (fspath_default Demo.demo 2 Demo.st0)).
Proof. eexists. vm_compute. reflexivity. Qed.

Example fspath_of_bytes :
  returned_payload (fspath Demo.demo 3 (CI_class "bytes") Demo.st0)
    = Some (PBytes Demo.b_xy).
Proof. vm_compute. reflexivity. Qed.

Example fspath_of_a_non_callable_attribute :
  fst (fspath_default Demo.demo 26 Demo.st0) =
    Raise (Exn TypeError "'NoneType' object is not callable").
Proof. vm_compute. reflexivity. Qed.

(** ** What a run can end in *)

(** Every normal return of [fspath] is one of its two [return]
    statements: either the path was an instance of the constraint and is
    returned itself, nothing having happened, or it was not, its
    [__fspath__] was called once, and what the call returned is an
    instance of the constraint and is what [fspath] returns. *)
Theorem fspath_returns_path_or_call_result prog st st' path r T :
  fspath prog path T st = (Return r, st') →
  (isinstance prog (st_heap st) path T = true ∧ r = path ∧ st' = st) ∨
  (isinstance prog (st_heap st) path T = false ∧
   hasattr prog (st_heap st) path "__fspath__" = true ∧
   invoke prog path "__fspath__" (st_heap st) = (Return r, st_heap st') ∧
   isinstance prog (st_heap st') r T = true ∧
   invocations (st_log st') = S (invocations (st_log st))).
Proof.
  destruct st as [h l]; cbn [st_heap st_log]. intros Hrun.
  fspath_cases prog h path T.
  - left. by injection Hrun as <- <-.
  - right. destruct (invoke prog path "__fspath__" h) as [[s|e] h1] eqn:Hcall; [|done].
    destruct (isinstance prog h1 s T) eqn:Hs; [|done].
    injection Hrun as <- <-. cbn [st_heap st_log].
    destruct (invoke_Return_callable prog h h1 path s Hcall) as [f Hf].
    unfold call_events. rewrite Hf. split_and!; [done..|].
    unfold invocations. rewrite List.filter_app, length_app. cbn. lia.
  - done.
Qed.

Lemma fspath_returns_path_or_call_result_witness :
  (isinstance Demo.demo Demo.demo_heap 20 (CI_class "str") = true ∧
   10%positive = 20%positive ∧
   State Demo.demo_heap [EvHasattr 20 "__fspath__"; EvGetattr 20 "__fspath__";
                         EvCall 20 "__fspath__"] = Demo.st0) ∨
  (isinstance Demo.demo Demo.demo_heap 20 (CI_class "str") = false ∧
   hasattr Demo.demo Demo.demo_heap 20 "__fspath__" = true ∧
   invoke Demo.demo 20 "__fspath__" Demo.demo_heap = (Return 10%positive, Demo.demo_heap) ∧
   isinstance Demo.demo Demo.demo_heap 10 (CI_class "str") = true ∧
   invocations [EvHasattr 20 "__fspath__"; EvGetattr 20 "__fspath__";
                EvCall 20 "__fspath__"] = 1).
Proof.
  apply (fspath_returns_path_or_call_result Demo.demo Demo.st0
           (State Demo.demo_heap [EvHasattr 20 "__fspath__"; EvGetattr 20 "__fspath__";
                                  EvCall 20 "__fspath__"])
           20 10 (CI_class "str")).
  vm_compute. reflexivity.
Defined.

(** ** What [__fspath__] may be bound to *)

Section bindings.
Variable prog : program.
Implicit Types (h : gmap loc object) (l : list event) (path s : loc) (T : classinfo).

Lemma getattr_hasattr h path a :
  getattr prog h path "__fspath__" = Some a →
  hasattr prog h path "__fspath__" = true.
Proof. intros Hg. unfold hasattr. rewrite Hg. by apply bool_decide_eq_true. Qed.

Lemma fspath_calls_function h l path T f :
  isinstance prog h path T = false →
  getattr prog h path "__fspath__" = Some (AFunction f) →
  fspath prog path T (State h l) =
    let '(r, h') := code prog f path h in
    let st' := State h' (l ++ [EvHasattr path "__fspath__"; EvGetattr path "__fspath__";
                               EvCall path "__fspath__"]) in
    match r with
    | Return s =>
        if isinstance prog h' s T then (Return s, st')
        else (Raise (Exn TypeError (msg_bad_return (type_name h' s))), st')
    | Raise e => (Raise e, st')
    end.
Proof.
  intros Hi Hg.
  rewrite (fspath_dispatch prog h l path T Hi (getattr_hasattr h path _ Hg)).
  unfold call_events, invoke. by rewrite Hg.
Qed.
End bindings.

(** A path whose [__fspath__] is the abstract method of [FSPathABC]
    (reached through [super().__fspath__()], say) and that is not itself
    an instance of the constraint makes [fspath] raise
    [NotImplementedError], not [TypeError]: the method is called once,
    its exception is not caught, and the heap is unchanged. *)
Theorem fspath_of_abstract_method prog st path T f :
  isinstance prog (st_heap st) path T = false →
  getattr prog (st_heap st) path "__fspath__" = Some (AFunction f) →
  code prog f = FSPathABC___fspath__ →
  fspath prog path T st =
    (Raise (Exn NotImplementedError ""),
     State (st_heap st)
           (st_log st ++ [EvHasattr path "__fspath__"; EvGetattr path "__fspath__";
                          EvCall path "__fspath__"])).
Proof.
  destruct st as [h l]; cbn [st_heap st_log]. intros Hi Hg Hcode.
  by rewrite (fspath_calls_function prog h l path T f Hi Hg), Hcode.
Qed.

Lemma fspath_of_abstract_method_witness :
  fspath Demo.demo 23 (CI_tuple [CI_class "str"; CI_class "bytes"]) Demo.st0 =
    (Raise (Exn NotImplementedError ""),
     State Demo.demo_heap [EvHasattr 23 "__fspath__"; EvGetattr 23 "__fspath__";
                           EvCall 23 "__fspath__"]).
Proof.
  apply (fspath_of_abstract_method Demo.demo Demo.st0 23
           (CI_tuple [CI_class "str"; CI_class "bytes"]) 0);
    vm_compute; reflexivity.
Defined.

(** [hasattr] is satisfied by any attribute, callable or not.  A path
    whose [__fspath__] is bound to a plain object (as in
    [__fspath__ = None]) therefore passes the test of the protocol: the
    error of the first [raise] is not raised; the attempt to call the
    attribute raises the interpreter's [TypeError] for a call of a
    non-callable, nothing is invoked and the heap is unchanged. *)
Theorem fspath_of_non_callable_attribute_raises prog st path T v :
  isinstance prog (st_heap st) path T = false →
  getattr prog (st_heap st) path "__fspath__" = Some (AValue v) →
  fspath prog path T st =
    (Raise (Exn TypeError
              ("'" +:+ type_name (st_heap st) v +:+ "' object is not callable")),
     State (st_heap st)
           (st_log st ++ [EvHasattr path "__fspath__"; EvGetattr path "__fspath__"])).
Proof.
  destruct st as [h l]; cbn [st_heap st_log]. intros Hi Hg.
  rewrite (fspath_dispatch prog h l path T Hi (getattr_hasattr prog h path _ Hg)).
  unfold call_events, invoke. by rewrite Hg.
Qed.

Lemma fspath_of_non_callable_attribute_raises_witness :
  fspath Demo.demo 26 (CI_class "str") Demo.st0 =
    (Raise (Exn TypeError "'NoneType' object is not callable"),
     State Demo.demo_heap [EvHasattr 26 "__fspath__"; EvGetattr 26 "__fspath__"]).
Proof.
  apply (fspath_of_non_callable_attribute_raises Demo.demo Demo.st0 26 (CI_class "str") 4);
    vm_compute; reflexivity.
Defined.

(** The protocol is looked up on the object, not only on its type.  For
    a path that is not an instance of the constraint and whose class and
    bases define no [__fspath__] at all, a callable [__fspath__] set on
    the instance is found by [hasattr] and called once, and its result is
    returned when it is an instance of the constraint. *)
Theorem fspath_honours_instance_attribute prog st path T ob f s h' :
  st_heap st !! path = Some ob →
  find_in_mro prog (mro prog (ob_type ob)) "__fspath__" = None →
  ob_dict ob !! "__fspath__" = Some (AFunction f) →
  isinstance prog (st_heap st) path T = false →
  code prog f path (st_heap st) = (Return s, h') →
  isinstance prog h' s T = true →
  fspath prog path T st =
    (Return s,
     State h' (st_log st ++ [EvHasattr path "__fspath__"; EvGetattr path "__fspath__";
                             EvCall path "__fspath__"])).
Proof.
  destruct st as [h l]; cbn [st_heap st_log]. intros Hob _ Hd Hi Hcode Hs.
  assert (Hg : getattr prog h path "__fspath__" = Some (AFunction f)).
  { unfold getattr. rewrite Hob. cbn [mbind option_bind]. by rewrite Hd. }
  by rewrite (fspath_calls_function prog h l path T f Hi Hg), Hcode, Hs.
Qed.

Lemma fspath_honours_instance_attribute_witness :
  fspath DemoPatched.patched 30 (CI_class "str") DemoPatched.st1 =
    (Return 10%positive,
     State DemoPatched.patched_heap
           [EvHasattr 30 "__fspath__"; EvGetattr 30 "__fspath__"; EvCall 30 "__fspath__"]).
Proof.
  apply (fspath_honours_instance_attribute DemoPatched.patched DemoPatched.st1 30
           (CI_class "str")
           (Object "Plain" PInstance {[ "__fspath__" := AFunction 1 ]}) 1 10
           DemoPatched.patched_heap); vm_compute; reflexivity.
Defined.

(** ** Tuples of classes as the type constraint *)

Section tuples.
Variable prog : program.
Implicit Types (h : gmap loc object) (l : list event) (path s : loc)
  (T : classinfo) (ts : list classinfo) (m : list string).

Lemma class_matches_tuple m ts :
  class_matches m (CI_tuple ts) = true ↔ ∃ T, T ∈ ts ∧ class_matches m T = true.
Proof.
  cbn [class_matches]. rewrite existsb_exists.
  split; intros (T & HT & Hm); exists T; split; try done; by apply list_elem_of_In.
Qed.

Lemma isinstance_tuple h o ts :
  isinstance prog h o (CI_tuple ts) = true ↔ ∃ T, T ∈ ts ∧ isinstance prog h o T = true.
Proof.
  unfold isinstance. destruct (type_of h o) as [c|].
  - apply class_matches_tuple.
  - split; [done|]. by intros (T & _ & ?).
Qed.

Lemma isinstance_tuple_false h o ts T :
  isinstance prog h o (CI_tuple ts) = false → T ∈ ts → isinstance prog h o T = false.
Proof.
  intros Hts HT. destruct (isinstance prog h o T) eqn:Hi; [|done].
  assert (isinstance prog h o (CI_tuple ts) = true) by (apply isinstance_tuple; eauto).
  congruence.
Qed.

(** What [fspath] returns is an instance of the constraint in the heap it
    leaves. *)
Lemma fspath_result_is_instance path r T st st' :
  fspath prog path T st = (Return r, st') →
  isinstance prog (st_heap st') r T = true.
Proof.
  destruct st as [h l]. intros Hrun.
  fspath_cases prog h path T.
  - by injection Hrun as <- <-.
  - destruct (invoke prog path "__fspath__" h) as [[s|e] h1]; [|done].
    destruct (isinstance prog h1 s T) eqn:Hs; [|done].
    by injection Hrun as <- <-.
  - done.
Qed.

End tuples.

(** Widening the constraint never turns a success into a failure: when
    [fspath] returns [r] under a constraint [T], under any tuple that
    contains [T] it returns either the path itself (which the wider
    constraint may accept at once) or the same [r], in the same state. *)
Theorem fspath_wider_constraint_still_succeeds prog st st' path r T ts :
  T ∈ ts →
  fspath prog path T st = (Return r, st') →
  fspath prog path (CI_tuple ts) st = (Return path, st) ∨
  fspath prog path (CI_tuple ts) st = (Return r, st').
Proof.
  destruct st as [h l]. intros HT Hrun.
  destruct (isinstance prog h path (CI_tuple ts)) eqn:Hts.
  { left. by apply fspath_fast. }
  right.
  pose proof (isinstance_tuple_false prog h path ts T Hts HT) as Hi.
  destruct (hasattr prog h path "__fspath__") eqn:Ha.
  - rewrite (fspath_dispatch prog h l path T Hi Ha) in Hrun.
    rewrite (fspath_dispatch prog h l path _ Hts Ha).
    destruct (invoke prog path "__fspath__" h) as [[s|e] h1]; [|done].
    destruct (isinstance prog h1 s T) eqn:Hs; [|done].
    assert (isinstance prog h1 s (CI_tuple ts) = true) as ->
      by (apply isinstance_tuple; eauto).
    done.
  - by rewrite (fspath_absent prog h l path T Hi Ha) in Hrun.
Qed.

Lemma fspath_wider_constraint_still_succeeds_witness :
  fspath Demo.demo 20 (CI_tuple [CI_class "PurePath"; CI_class "str"]) Demo.st0
    = (Return 20%positive, Demo.st0) ∨
  fspath Demo.demo 20 (CI_tuple [CI_class "PurePath"; CI_class "str"]) Demo.st0
    = (Return 10%positive,
       State Demo.demo_heap [EvHasattr 20 "__fspath__"; EvGetattr 20 "__fspath__";
                             EvCall 20 "__fspath__"]).
Proof.
  apply (fspath_wider_constraint_still_succeeds Demo.demo Demo.st0
           (State Demo.demo_heap [EvHasattr 20 "__fspath__"; EvGetattr 20 "__fspath__";
                                  EvCall 20 "__fspath__"])
           20 10 (CI_class "str") [CI_class "PurePath"; CI_class "str"]).
  - apply list_elem_of_further, list_elem_of_here.
  - vm_compute. reflexivity.
Defined.

(** A tuple constraint accepts nothing that none of its members accepts:
    when [fspath] returns under a tuple, some member of the tuple alone
    also makes it return, the same object and with the same heap. *)
Theorem fspath_tuple_success_is_member_success prog st st' path r ts :
  fspath prog path (CI_tuple ts) st = (Return r, st') →
  ∃ T, T ∈ ts ∧
       fst (fspath prog path T st) = Return r ∧
       st_heap (snd (fspath prog path T st)) = st_heap st'.
Proof.
  destruct st as [h l]. intros Hrun.
  fspath_cases prog h path (CI_tuple ts).
  - injection Hrun as <- <-.
    apply isinstance_tuple in Hinst as (T & HT & Hi).
    exists T. split; [done|]. by rewrite (fspath_fast prog h l path T Hi).
  - destruct (invoke prog path "__fspath__" h) as [[s|e] h1] eqn:Hcall; [|done].
    destruct (isinstance prog h1 s (CI_tuple ts)) eqn:Hs; [|done].
    injection Hrun as <- <-.
    apply isinstance_tuple in Hs as (T & HT & Hi).
    exists T. split; [done|].
    rewrite (fspath_dispatch prog h l path T
               (isinstance_tuple_false prog h path ts T Hinst HT) Hattr).
    by rewrite Hcall, Hi.
  - done.
Qed.

Lemma fspath_tuple_success_is_member_success_witness :
  ∃ T, T ∈ [CI_class "str"; CI_class "bytes"] ∧
       fst (fspath Demo.demo 22 T Demo.st0) = Return 3%positive ∧
       st_heap (snd (fspath Demo.demo 22 T Demo.st0)) = Demo.demo_heap.
Proof.
  apply (fspath_tuple_success_is_member_success Demo.demo Demo.st0
           (State Demo.demo_heap [EvHasattr 22 "__fspath__"; EvGetattr 22 "__fspath__";
                                  EvCall 22 "__fspath__"])).
  vm_compute. reflexivity.
Defined.

(** Under the empty tuple nothing is an instance, so [fspath] never
    returns: every call ends in an exception. *)
Theorem fspath_empty_tuple_never_returns prog st path :
  ∃ e, fst (fspath prog path (CI_tuple []) st) = Raise e.
Proof.
  destruct (fspath prog path (CI_tuple []) st) as [[r|e] st'] eqn:Hrun; [|by eauto].
  apply fspath_result_is_instance, isinstance_tuple in Hrun as (T & HT & _).
  by apply elem_of_nil in HT.
Qed.

(** What [fspath] returns under a constraint [T] is accepted as it is by
    a later call under any tuple that contains [T]: that call returns
    the same object and changes nothing. *)
Theorem fspath_result_passes_wider_constraint prog st st' path r T ts :
  T ∈ ts →
  fspath prog path T st = (Return r, st') →
  fspath prog r (CI_tuple ts) st' = (Return r, st').
Proof.
  intros HT Hrun.
  pose proof (fspath_result_is_instance prog path r T st st' Hrun) as Hr.
  destruct st' as [h' l']. cbn [st_heap] in Hr.
  apply fspath_fast, isinstance_tuple. by exists T.
Qed.

Lemma fspath_result_passes_wider_constraint_witness :
  fspath Demo.demo 10 (CI_tuple [CI_class "str"; CI_class "bytes"])
    (State Demo.demo_heap [EvHasattr 20 "__fspath__"; EvGetattr 20 "__fspath__";
                           EvCall 20 "__fspath__"])
  = (Return 10%positive,
     State Demo.demo_heap [EvHasattr 20 "__fspath__"; EvGetattr 20 "__fspath__";
                           EvCall 20 "__fspath__"]).
Proof.
  apply (fspath_result_passes_wider_constraint Demo.demo Demo.st0
           (State Demo.demo_heap [EvHasattr 20 "__fspath__"; EvGetattr 20 "__fspath__";
                                  EvCall 20 "__fspath__"])
           20 10 (CI_class "str") [CI_class "str"; CI_class "bytes"]).
  - apply list_elem_of_here.
  - vm_compute. reflexivity.
Defined.
